(** * Settings facade of MediaHelp: [backend/api/sysSetting.py]

    A shallow embedding of the six request handlers of the module and of
    the configuration mapping they read and write, followed by the
    properties of the handlers.

    The handlers are Python coroutines that never await: each one runs
    from its first statement to its [return] (or to the exception it
    raises) without interleaving, so a handler is a function from the
    state of the configuration manager to an outcome and a new state.
    The [current_user] dependency is resolved by the framework before a
    handler is entered and no handler reads it; it is not a parameter
    here.  What the framework does with a handler's return value (the
    [response_model] serialisation) happens after the handler returned
    and is outside this development. *)

From stdpp Require Import gmap strings list fin_maps.

#[local] Set Warnings "-register-all".

(** ** Python values *)

(** The values a configuration mapping holds ([Dict[str, Any]]): what a
    JSON or YAML document loads to.  A [dict] with string keys is a
    [gmap]: Python compares dicts regardless of insertion order.  No
    handler looks inside a number, so one integer constructor stands for
    the numeric scalars. *)
Inductive value : Type :=
  | VNone
  | VBool (b : bool)
  | VInt (n : Z)
  | VStr (s : string)
  | VList (l : list value)
  | VDict (d : gmap string value).

(** The exceptions the handlers can raise. *)
Inductive exn : Type :=
  | KeyError (key : string)
  | TypeError
  | ValidationError.

Inductive outcome (A : Type) : Type :=
  | Returns (a : A)
  | Raises (e : exn).
Arguments Returns {A} a.
Arguments Raises {A} e.

#[global] Instance outcome_ret : MRet outcome := λ A a, Returns a.
#[global] Instance outcome_bind : MBind outcome := λ A B f m,
  match m with
  | Returns a => f a
  | Raises e => Raises e
  end.

(** [o[k]] for a string key [k]: a dict is looked up ([KeyError] when the
    key is missing); a string, a list, [None] and the scalars raise
    [TypeError] (string and list indices must be integers, the others
    are not subscriptable). *)
Definition getitem (o : value) (k : string) : outcome value :=
  match o with
  | VDict d =>
      match d !! k with
      | Some v => Returns v
      | None => Raises (KeyError k)
      end
  | _ => Raises TypeError
  end.

(** [o[k] = v] for a string key [k]: only a dict supports it. *)
Definition setitem (o : value) (k : string) (v : value) : outcome value :=
  match o with
  | VDict d => Returns (VDict (<[k := v]> d))
  | _ => Raises TypeError
  end.

(** ** The configuration manager *)

(** Modelled from the spec: [utils/config_manager.py] is not part of the
    sources.  The Configuration Store "holds a single mapping from
    setting-name to value for the whole process" (spec, section 2).
    [store] is that mapping; [updates] records the partial mappings
    handed to [update_config] so far, oldest first, so that the writes
    of a handler can be told from one another. *)
Record ConfigManager : Type := {
  store : gmap string value;
  updates : list (gmap string value)
}.

(** ** Handlers as state transformers with exceptions *)

(** A handler run: the outcome, and the state of the configuration
    manager it leaves behind (kept when an exception is raised). *)
Definition handler (A : Type) : Type :=
  ConfigManager → outcome A * ConfigManager.

#[global] Instance handler_ret : MRet handler := λ A a st, (Returns a, st).
#[global] Instance handler_bind : MBind handler := λ A B f m st,
  match m st with
  | (Returns a, st') => f a st'
  | (Raises e, st') => (Raises e, st')
  end.

(** An outcome computed without touching the configuration manager. *)
Definition eval {A : Type} (o : outcome A) : handler A := λ st, (o, st).

Module config_manager.

(** Modelled from the spec: [get_config()] of the absent
    [utils/config_manager.py], "returning a full snapshot mapping"
    (section 2); the handlers work on "a local copy" of what they read
    (section 4.1). *)
Definition get_config : handler (gmap string value) :=
  λ self, (Returns (store self), self).

(** Modelled from the spec: [update_config(new_config)] of the absent
    [utils/config_manager.py], "performing a shallow merge of the
    partial mapping into the snapshot and persisting it" (section 2):
    "top-level keys from the update overwrite the same keys in the
    base; keys absent from the update are preserved" (glossary). *)
Definition update_config (new_config : gmap string value) : handler unit :=
  λ self, (Returns tt, {| store := new_config ∪ store self;
                          updates := updates self ++ [new_config] |}).

End config_manager.

(** ** Schemas *)

(** Modelled from the spec: the envelope [{code, message, data}] of the
    absent [schemas/response.py] (section 6).  The handlers build it
    with the keyword arguments [data] and [message]; the record holds
    those two, [None] standing for an argument left to the default of
    the class. *)
Record Response (D : Type) : Type := mkResponse {
  message : option string;
  data : option D
}.
Arguments mkResponse {D} message data.
Arguments message {D} r.
Arguments data {D} r.

Module SysSettingUpdate.
(** Modelled from the spec: the request schema of [schemas/sysSetting.py]
    (absent), "an object with ALL fields optional" (section 4.1), the
    fields typed as in the table of section 3. *)
Record t : Type := Build {
  emby_url : option string;
  emby_api_key : option string;
  alist_url : option string;
  alist_api_key : option string;
  tianyiAccount : option string;
  tianyiPassword : option string;
  quarkCookie : option string;
  use_proxy : option bool;
  proxy_host : option string;
  proxy_port : option string;
  proxy_username : option string;
  proxy_password : option string
}.
End SysSettingUpdate.

(** What pydantic does with a field value that is not of the declared
    type (coerce it, or reject it) depends on the absent schema and on
    the library version: it is a parameter.  [None] is a rejection. *)
Class Coercion : Type := {
  coerce_bool : value → option bool;
  coerce_str : value → option string
}.

Module ProxyConfig.
(** Modelled from the spec: the schema of [schemas/sysSetting.py]
    (absent), "all five proxy fields REQUIRED"; [use_proxy] is a
    boolean and the four others are strings (sections 3 and 4.1). *)
Record t : Type := Build {
  use_proxy : bool;
  proxy_host : string;
  proxy_port : string;
  proxy_username : string;
  proxy_password : string
}.

Definition validate_bool `{Coercion} (v : value) : outcome bool :=
  match v with
  | VBool b => Returns b
  | _ =>
      match coerce_bool v with
      | Some b => Returns b
      | None => Raises ValidationError
      end
  end.

Definition validate_str `{Coercion} (v : value) : outcome string :=
  match v with
  | VStr s => Returns s
  | _ =>
      match coerce_str v with
      | Some s => Returns s
      | None => Raises ValidationError
      end
  end.

(** The constructor call [ProxyConfig(use_proxy=..., ...)]: a value of
    the declared type is taken as it is, any other goes through the
    coercion. *)
Definition new `{Coercion}
    (use_proxy proxy_host proxy_port proxy_username proxy_password : value)
    : outcome t :=
  b ← validate_bool use_proxy;
  h ← validate_str proxy_host;
  p ← validate_str proxy_port;
  u ← validate_str proxy_username;
  w ← validate_str proxy_password;
  mret (Build b h p u w).
End ProxyConfig.

Module TGChannel.
(** Modelled from the spec: the schema of [schemas/sysSetting.py]
    (absent), an entry [{id: string, name: string}] (section 3). *)
Record t : Type := Build {
  id : string;
  name : string
}.

(** [channel.dict()]: the entry "reduced to its [{id, name}] plain
    form". *)
Definition dict (channel : t) : value :=
  VDict (<["id" := VStr (id channel)]> (<["name" := VStr (name channel)]> ∅)).
End TGChannel.

(** A [Dict[str, str]] argument as a stored value. *)
Definition dict_of_patterns (patterns : gmap string string) : value :=
  VDict (VStr <$> patterns).

(** [config.get(key, default)] *)
Definition get (config : gmap string value) (key : string) (dflt : value) : value :=
  default dflt (config !! key).

(** ** The handlers *)

(** [GET /sysSetting/config] *)
Definition get_system_config : handler (Response (gmap string value)) :=
  config ← config_manager.get_config;
  mret (mkResponse None (Some config)).

(** One [if config.f is not None: new_config["f"] = config.f] statement. *)
Definition copy_if_set (key : string) (field : option value)
    (new_config : gmap string value) : gmap string value :=
  match field with
  | Some v => <[key := v]> new_config
  | None => new_config
  end.

(** [PUT /sysSetting/config] *)
Definition update_system_config (config : SysSettingUpdate.t)
    : handler (Response (gmap string value)) :=
  let new_config : gmap string value := ∅ in
  let new_config := copy_if_set "emby_url" (VStr <$> SysSettingUpdate.emby_url config) new_config in
  let new_config := copy_if_set "emby_api_key" (VStr <$> SysSettingUpdate.emby_api_key config) new_config in
  let new_config := copy_if_set "alist_url" (VStr <$> SysSettingUpdate.alist_url config) new_config in
  let new_config := copy_if_set "alist_api_key" (VStr <$> SysSettingUpdate.alist_api_key config) new_config in
  let new_config := copy_if_set "tianyiAccount" (VStr <$> SysSettingUpdate.tianyiAccount config) new_config in
  let new_config := copy_if_set "tianyiPassword" (VStr <$> SysSettingUpdate.tianyiPassword config) new_config in
  let new_config := copy_if_set "quarkCookie" (VStr <$> SysSettingUpdate.quarkCookie config) new_config in
  let new_config := copy_if_set "use_proxy" (VBool <$> SysSettingUpdate.use_proxy config) new_config in
  let new_config := copy_if_set "proxy_host" (VStr <$> SysSettingUpdate.proxy_host config) new_config in
  let new_config := copy_if_set "proxy_port" (VStr <$> SysSettingUpdate.proxy_port config) new_config in
  let new_config := copy_if_set "proxy_username" (VStr <$> SysSettingUpdate.proxy_username config) new_config in
  let new_config := copy_if_set "proxy_password" (VStr <$> SysSettingUpdate.proxy_password config) new_config in
  _ ← config_manager.update_config new_config;
  updated_config ← config_manager.get_config;
  mret (mkResponse None (Some updated_config)).

(** [GET /sysSetting/proxy/config] *)
Definition get_proxy_config `{Coercion} : handler (Response ProxyConfig.t) :=
  config ← config_manager.get_config;
  proxy_config ← eval (ProxyConfig.new
    (get config "use_proxy" (VBool false))
    (get config "proxy_host" (VStr ""))
    (get config "proxy_port" (VStr ""))
    (get config "proxy_username" (VStr ""))
    (get config "proxy_password" (VStr "")));
  mret (mkResponse None (Some proxy_config)).

(** [PUT /sysSetting/proxy/config] *)
Definition update_proxy_config (config : ProxyConfig.t)
    : handler (Response ProxyConfig.t) :=
  let new_config : gmap string value :=
    <["use_proxy" := VBool (ProxyConfig.use_proxy config)]> (
    <["proxy_host" := VStr (ProxyConfig.proxy_host config)]> (
    <["proxy_port" := VStr (ProxyConfig.proxy_port config)]> (
    <["proxy_username" := VStr (ProxyConfig.proxy_username config)]> (
    <["proxy_password" := VStr (ProxyConfig.proxy_password config)]> ∅)))) in
  _ ← config_manager.update_config new_config;
  mret (mkResponse None (Some config)).

(** [GET /sysSetting/tg-resource/config] *)
Definition get_tg_resource_config : handler (Response value) :=
  config ← config_manager.get_config;
  mret (mkResponse None (Some (get config "tg_resource" (VDict ∅)))).

(** [tg_config["telegram"]["channels"] = channels]: the right-hand side
    is evaluated first (it cannot fail), then [tg_config["telegram"]] is
    fetched, then the item is set in the dict fetched.  That dict is the
    one [tg_config] holds, so [tg_config] sees the new entry: storing
    the updated dict back under ["telegram"] expresses the mutation. *)
Definition set_channels (tg_config : value) (channels : value) : outcome value :=
  telegram ← getitem tg_config "telegram";
  telegram ← setitem telegram "channels" channels;
  setitem tg_config "telegram" telegram.

(** [PUT /sysSetting/tg-resource/config].  The handler assigns into the
    value it read.  Whether [get_config] hands out a copy (as the
    specification has it) or the stored mapping itself, the store ends
    the same: once the first assignment went through, [tg_config] is a
    dict and the second cannot raise, so no exception comes after an
    assignment, and a run that returns writes [tg_config] whole. *)
Definition update_tg_resource_config
    (channels : option (list TGChannel.t))
    (patterns : option (gmap string string)) : handler (Response unit) :=
  config ← config_manager.get_config;
  let tg_config := get config "tg_resource" (VDict ∅) in
  tg_config ← eval (match channels with
                    | Some channels => set_channels tg_config (VList (TGChannel.dict <$> channels))
                    | None => Returns tg_config
                    end);
  tg_config ← eval (match patterns with
                    | Some patterns => setitem tg_config "cloudPatterns" (dict_of_patterns patterns)
                    | None => Returns tg_config
                    end);
  _ ← config_manager.update_config {["tg_resource" := tg_config]};
  mret (mkResponse (Some "TG资源配置更新成功") None).

(** ** Reading the store the way the specification speaks of it *)

(** The twelve fields [UpdateConfig] recognises, in the order of the
    specification. *)
Definition recognized_fields : list string :=
  ["emby_url"; "emby_api_key"; "alist_url"; "alist_api_key";
   "tianyiAccount"; "tianyiPassword"; "quarkCookie"; "use_proxy";
   "proxy_host"; "proxy_port"; "proxy_username"; "proxy_password"].

(** The value a partial update submits for the key [k]: [None] when [k]
    is not a recognised field or the field is unset. *)
Definition submitted (P : SysSettingUpdate.t) (k : string) : option value :=
  if decide (k = "emby_url") then VStr <$> SysSettingUpdate.emby_url P
  else if decide (k = "emby_api_key") then VStr <$> SysSettingUpdate.emby_api_key P
  else if decide (k = "alist_url") then VStr <$> SysSettingUpdate.alist_url P
  else if decide (k = "alist_api_key") then VStr <$> SysSettingUpdate.alist_api_key P
  else if decide (k = "tianyiAccount") then VStr <$> SysSettingUpdate.tianyiAccount P
  else if decide (k = "tianyiPassword") then VStr <$> SysSettingUpdate.tianyiPassword P
  else if decide (k = "quarkCookie") then VStr <$> SysSettingUpdate.quarkCookie P
  else if decide (k = "use_proxy") then VBool <$> SysSettingUpdate.use_proxy P
  else if decide (k = "proxy_host") then VStr <$> SysSettingUpdate.proxy_host P
  else if decide (k = "proxy_port") then VStr <$> SysSettingUpdate.proxy_port P
  else if decide (k = "proxy_username") then VStr <$> SysSettingUpdate.proxy_username P
  else if decide (k = "proxy_password") then VStr <$> SysSettingUpdate.proxy_password P
  else None.

(** The five keys of the proxy settings. *)
Definition proxy_fields : list string :=
  ["use_proxy"; "proxy_host"; "proxy_port"; "proxy_username"; "proxy_password"].

Definition is_bool (v : value) : bool :=
  match v with VBool _ => true | _ => false end.

Definition is_str (v : value) : bool :=
  match v with VStr _ => true | _ => false end.

(** The key [k] is absent from [cfg], or holds a value that [ty] accepts. *)
Definition absent_or (ty : value → bool) (cfg : gmap string value) (k : string) : bool :=
  match cfg !! k with
  | Some v => ty v
  | None => true
  end.

(** Every proxy setting the store holds has the type section 3 of the
    specification gives it. *)
Definition proxy_fields_typed (cfg : gmap string value) : bool :=
  absent_or is_bool cfg "use_proxy"
  && absent_or is_str cfg "proxy_host"
  && absent_or is_str cfg "proxy_port"
  && absent_or is_str cfg "proxy_username"
  && absent_or is_str cfg "proxy_password".

(** A schema that rejects every value that is not of the declared type. *)
Definition strict : Coercion :=
  {| coerce_bool := λ _, None; coerce_str := λ _, None |}.

Definition is_dict (v : value) : bool :=
  match v with VDict _ => true | _ => false end.

(** The sub-section [tg_resource.k] of a configuration, when
    [tg_resource] is an object that has the key [k]. *)
Definition tg_section (cfg : gmap string value) (k : string) : option value :=
  match cfg !! "tg_resource" with
  | Some (VDict tg) => tg !! k
  | _ => None
  end.

(** What the store holds at [tg_resource.telegram]. *)
Inductive telegram_shape : Type :=
  | TelegramObject (telegram : gmap string value)
  | TelegramMissing
  | TelegramNotObject.

(** [TelegramMissing]: [tg_resource] is absent, or is an object without
    the key [telegram].  [TelegramNotObject]: [tg_resource] is stored as
    something else than an object, or [telegram] is. *)
Definition telegram_of (cfg : gmap string value) : telegram_shape :=
  match cfg !! "tg_resource" with
  | None => TelegramMissing
  | Some (VDict tg) =>
      match tg !! "telegram" with
      | None => TelegramMissing
      | Some (VDict telegram) => TelegramObject telegram
      | Some _ => TelegramNotObject
      end
  | Some _ => TelegramNotObject
  end.

(** The objects the assignments of [UpdateTGResourceConfig] index are
    there: with [channels] given, [tg_resource.telegram] is an object;
    with [channels] absent, [tg_resource] is absent or an object. *)
Definition tg_assignable (channels : option (list TGChannel.t))
    (cfg : gmap string value) : bool :=
  match channels with
  | Some _ =>
      match telegram_of cfg with
      | TelegramObject _ => true
      | _ => false
      end
  | None => absent_or is_dict cfg "tg_resource"
  end.

(** The acknowledgement [UpdateTGResourceConfig] answers with. *)
Definition tg_updated : Response unit :=
  mkResponse (Some "TG资源配置更新成功") None.

(** *** Sample stores and requests *)

Definition fresh_store : ConfigManager :=
  Build_ConfigManager ∅ [].

Definition media_store : ConfigManager :=
  Build_ConfigManager
    (<["emby_url" := VStr "a"]> (<["alist_url" := VStr "b"]> (
     <["use_proxy" := VBool true]> (<["proxy_host" := VStr "127.0.0.1"]> ∅))))
    [].

Definition tg_store : ConfigManager :=
  Build_ConfigManager
    {[ "tg_resource" := VDict (
         <["telegram" := VDict (<["baseUrl" := VStr "https://t.me/s"]> (
                                <["channels" := VList [TGChannel.dict (TGChannel.Build "x" "X")]]> ∅))]> (
         <["cloudPatterns" := VDict (<["a" := VStr "x"]> (<["b" := VStr "y"]> ∅))]> ∅)) ]}
    [].

(** [tg_resource.telegram] stored as a string. *)
Definition string_telegram_store : ConfigManager :=
  Build_ConfigManager
    {[ "tg_resource" := VDict {[ "telegram" := VStr "https://t.me/s" ]} ]} [].

(** [tg_resource] stored as [None] (an empty key of the settings file). *)
Definition null_tg_store : ConfigManager :=
  Build_ConfigManager {[ "tg_resource" := VNone ]} [].

(** A partial update that sets [emby_url] only. *)
Definition only_emby_url (url : string) : SysSettingUpdate.t :=
  SysSettingUpdate.Build (Some url) None None None None None None None None None None None.

(** ** Requests *)

(** The six routes the module registers on [router] (prefix
    [/sysSetting]), each with the body its handler takes:
    [GET /config], [PUT /config], [GET /proxy/config],
    [PUT /proxy/config], [GET /tg-resource/config] and
    [PUT /tg-resource/config]. *)
Inductive request : Type :=
  | GetConfig
  | UpdateConfig (config : SysSettingUpdate.t)
  | GetProxyConfig
  | UpdateProxyConfig (config : ProxyConfig.t)
  | GetTGResourceConfig
  | UpdateTGResourceConfig (channels : option (list TGChannel.t))
                           (patterns : option (gmap string string)).

(** What is left of a handler run once the response is sent: the
    exception, if one was raised, and the configuration manager. *)
Definition settle {A : Type} (r : outcome A * ConfigManager) : option exn * ConfigManager :=
  match r with
  | (Returns _, st) => (None, st)
  | (Raises e, st) => (Some e, st)
  end.

(** The handler of a request, run. *)
Definition serve `{Coercion} (req : request) (st : ConfigManager)
    : option exn * ConfigManager :=
  match req with
  | GetConfig => settle (get_system_config st)
  | UpdateConfig config => settle (update_system_config config st)
  | GetProxyConfig => settle (get_proxy_config st)
  | UpdateProxyConfig config => settle (update_proxy_config config st)
  | GetTGResourceConfig => settle (get_tg_resource_config st)
  | UpdateTGResourceConfig channels patterns =>
      settle (update_tg_resource_config channels patterns st)
  end.

(** Requests served one after the other, whatever each one answers. *)
Definition serve_all `{Coercion} (reqs : list request) (st : ConfigManager) : ConfigManager :=
  foldl (λ st req, (serve req st).2) st reqs.

(** The partial update that sets the five proxy fields of [p] and
    nothing else. *)
Definition proxy_update (p : ProxyConfig.t) : SysSettingUpdate.t :=
  SysSettingUpdate.Build None None None None None None None
    (Some (ProxyConfig.use_proxy p)) (Some (ProxyConfig.proxy_host p))
    (Some (ProxyConfig.proxy_port p)) (Some (ProxyConfig.proxy_username p))
    (Some (ProxyConfig.proxy_password p)).

(** The assignments of [UpdateTGResourceConfig] find what they index:
    nothing is indexed without arguments; [patterns] alone indexes
    [tg_resource]; [channels] indexes [tg_resource.telegram]. *)
Definition tg_update_returns (channels : option (list TGChannel.t))
    (patterns : option (gmap string string)) (cfg : gmap string value) : bool :=
  match channels, patterns with
  | None, None => true
  | _, _ => tg_assignable channels cfg
  end.

(** The object a call leaves under [tg_resource] when it found an
    object [tg] there, with an object [telegram] in it. *)
Definition tg_after (channels : option (list TGChannel.t))
    (patterns : option (gmap string string))
    (tg telegram : gmap string value) : gmap string value :=
  let tg := match channels with
            | Some channels =>
                <["telegram" := VDict (<["channels" := VList (TGChannel.dict <$> channels)]>
                                         telegram)]> tg
            | None => tg
            end in
  match patterns with
  | Some patterns => <["cloudPatterns" := dict_of_patterns patterns]> tg
  | None => tg
  end.

(** A session that touches the three groups of settings. *)
Definition sample_session : list request :=
  [ UpdateConfig (only_emby_url "c");
    UpdateTGResourceConfig (Some [TGChannel.Build "y" "Y"]) (Some {["c" := "z"]});
    GetProxyConfig;
    UpdateProxyConfig (ProxyConfig.Build false "" "8080" "" "");
    UpdateTGResourceConfig None None;
    GetTGResourceConfig ].

(** ** Properties *)

(** Runs a handler whose control flow is settled. *)
Ltac run :=
  unfold update_tg_resource_config, get_tg_resource_config, update_proxy_config,
    get_proxy_config, update_system_config, get_system_config,
    config_manager.get_config, config_manager.update_config, eval, get;
  unfold mbind, mret, handler_bind, handler_ret; simpl.

Lemma lookup_copy_if_set key field (m : gmap string value) k :
  copy_if_set key field m !! k =
    if decide (key = k) then
      match field with Some v => Some v | None => m !! k end
    else m !! k.
Proof.
  unfold copy_if_set. destruct field; case_decide; subst; simplify_map_eq; done.
Qed.

Lemma submitted_recognized P k :
  k ∉ recognized_fields → submitted P k = None.
Proof.
  intros Hk. unfold submitted.
  repeat (case_decide; [subst k; exfalso; apply Hk; unfold recognized_fields; set_solver|]).
  done.
Qed.

(** C1. [UpdateConfig] is a partial update: the handler returns, it hands
    the store a mapping holding exactly the fields the update sets, with
    their values; afterwards every key reads the submitted value when
    the update sets it and its former value when it does not (so an
    omitted field is never cleared, and a key that is not one of the
    twelve fields is never touched); the response carries the new
    mapping, and so does a [GetConfig] that follows. *)
Theorem update_system_config_patch (st : ConfigManager) (P : SysSettingUpdate.t) :
  ∃ (staged cfg' : gmap string value),
    let st' := {| store := cfg'; updates := updates st ++ [staged] |} in
    update_system_config P st = (Returns (mkResponse None (Some cfg')), st')
    ∧ (∀ k, staged !! k = submitted P k)
    ∧ (∀ k, cfg' !! k = match submitted P k with
                        | Some v => Some v
                        | None => store st !! k
                        end)
    ∧ (∀ k, k ∉ recognized_fields → cfg' !! k = store st !! k)
    ∧ get_system_config st' = (Returns (mkResponse None (Some cfg')), st').
Proof.
  assert (Hstaged : ∃ staged, ∀ st0,
    update_system_config P st0 =
      (Returns (mkResponse None (Some (staged ∪ store st0))),
       {| store := staged ∪ store st0; updates := updates st0 ++ [staged] |})
    ∧ ∀ k, staged !! k = submitted P k).
  { eexists. intros st0. split; [reflexivity|].
    intros k. rewrite !lookup_copy_if_set, lookup_empty. unfold submitted.
    repeat (case_decide; [subst k; simpl; repeat case_match; done|]).
    repeat (case_decide; [congruence|]). done. }
  destruct Hstaged as [staged Hst]. destruct (Hst st) as [Hrun Hlook].
  exists staged, (staged ∪ store st). cbn zeta.
  assert (Hcfg : ∀ k, (staged ∪ store st) !! k =
     match submitted P k with Some v => Some v | None => store st !! k end).
  { intros k. rewrite lookup_union, Hlook.
    destruct (submitted P k), (store st !! k); done. }
  split_and!; try done.
  intros k Hk. by rewrite Hcfg, submitted_recognized.
Qed.

(** C9. [GetConfig] answers with the whole stored mapping, as it is, and
    leaves the configuration manager as it found it; two calls in a row
    give the same answer. *)
Theorem get_system_config_verbatim (st : ConfigManager) :
  get_system_config st = (Returns (mkResponse None (Some (store st))), st)
  ∧ (r1 ← get_system_config; r2 ← get_system_config; mret (r1, r2)) st =
      (Returns (mkResponse None (Some (store st)),
                mkResponse None (Some (store st))), st).
Proof. split; reflexivity. Qed.

(** C8. [GetTGResourceConfig] answers with the value stored under
    [tg_resource], or with an empty object when the key is absent, and
    leaves the configuration manager (mapping and update log) as it
    found it. *)
Theorem get_tg_resource_config_lookup (st : ConfigManager) :
  get_tg_resource_config st =
    (Returns (mkResponse None (Some (match store st !! "tg_resource" with
                                     | Some tg => tg
                                     | None => VDict ∅
                                     end))), st).
Proof. run. by destruct (store st !! "tg_resource"). Qed.

(** C4. [UpdateProxyConfig] hands the store a mapping of exactly the five
    proxy keys, holding the submitted values, whatever the store held
    before; its response is the submitted object; a [GetProxyConfig]
    that follows answers with the submitted object. *)
Theorem update_proxy_config_full_replace `{Coercion} (st : ConfigManager) (p : ProxyConfig.t) :
  ∃ written : gmap string value,
    let st' := {| store := written ∪ store st; updates := updates st ++ [written] |} in
    update_proxy_config p st = (Returns (mkResponse None (Some p)), st')
    ∧ dom written = list_to_set proxy_fields
    ∧ written !! "use_proxy" = Some (VBool (ProxyConfig.use_proxy p))
    ∧ written !! "proxy_host" = Some (VStr (ProxyConfig.proxy_host p))
    ∧ written !! "proxy_port" = Some (VStr (ProxyConfig.proxy_port p))
    ∧ written !! "proxy_username" = Some (VStr (ProxyConfig.proxy_username p))
    ∧ written !! "proxy_password" = Some (VStr (ProxyConfig.proxy_password p))
    ∧ get_proxy_config st' = (Returns (mkResponse None (Some p)), st').
Proof.
  eexists. cbn zeta. split; [reflexivity|].
  split; [rewrite !dom_insert_L, dom_empty_L; unfold proxy_fields; set_solver|].
  split_and!; try done.
  run. rewrite !lookup_union. simplify_map_eq. rewrite !union_Some_l. simpl.
  by destruct p.
Qed.

Lemma absent_or_bool cfg k :
  absent_or is_bool cfg k = true →
  ∃ b, default (VBool false) (cfg !! k) = VBool b.
Proof.
  unfold absent_or. destruct (cfg !! k) as [[]|]; simpl; try done; eauto.
Qed.

Lemma absent_or_str cfg k :
  absent_or is_str cfg k = true →
  ∃ s, default (VStr "") (cfg !! k) = VStr s.
Proof.
  unfold absent_or. destruct (cfg !! k) as [[]|]; simpl; try done; eauto.
Qed.



(** *** [UpdateTGResourceConfig] *)

(** The handler in one piece: the two assignments are computed on the
    value read, and the store is written only when both went through. *)
Lemma update_tg_resource_config_unfold (st : ConfigManager) channels patterns :
  update_tg_resource_config channels patterns st =
    let tg_config := default (VDict ∅) (store st !! "tg_resource") in
    match
      tg_config ← match channels with
                  | Some channels =>
                      set_channels tg_config (VList (TGChannel.dict <$> channels))
                  | None => Returns tg_config
                  end;
      match patterns with
      | Some patterns => setitem tg_config "cloudPatterns" (dict_of_patterns patterns)
      | None => Returns tg_config
      end
    with
    | Returns tg_config =>
        (Returns tg_updated,
         {| store := {["tg_resource" := tg_config]} ∪ store st;
            updates := updates st ++ [{["tg_resource" := tg_config]}] |})
    | Raises e => (Raises e, st)
    end.
Proof.
  run.
  destruct (match channels with Some _ => _ | None => _ end); simpl; [|done].
  by destruct (match patterns with Some _ => _ | None => _ end).
Qed.

Lemma set_channels_spec (tg_config channels : value) :
  set_channels tg_config channels =
    match tg_config with
    | VDict tg =>
        match tg !! "telegram" with
        | Some (VDict telegram) =>
            Returns (VDict (<["telegram" := VDict (<["channels" := channels]> telegram)]> tg))
        | Some _ => Raises TypeError
        | None => Raises (KeyError "telegram")
        end
    | _ => Raises TypeError
    end.
Proof.
  unfold set_channels. destruct tg_config as [| | | | |tg]; try done. simpl.
  destruct (tg !! "telegram") as [[]|]; done.
Qed.

Lemma lookup_tg_resource_written (tg_config : value) (cfg : gmap string value) k :
  ({["tg_resource" := tg_config]} ∪ cfg) !! k =
    if decide (k = "tg_resource") then Some tg_config else cfg !! k.
Proof.
  rewrite lookup_union. case_decide; subst.
  - by rewrite lookup_singleton_eq, union_Some_l.
  - rewrite lookup_singleton_ne by done. by rewrite (left_id None _).
Qed.

(** Once the channels are assigned, assigning the patterns cannot raise. *)
Lemma set_channels_then_patterns (tg_config channels tg_config' patterns : value) :
  set_channels tg_config channels = Returns tg_config' →
  ∃ tg_config'', setitem tg_config' "cloudPatterns" patterns = Returns tg_config''.
Proof.
  rewrite set_channels_spec. destruct tg_config as [| | | | |tg]; try done.
  destruct (tg !! "telegram") as [[]|]; try done. intros [= <-]. simpl. eauto.
Qed.

(** Splits on what the store holds under [tg_resource] and
    [tg_resource.telegram], and on the two arguments. *)
Ltac tg_cases st :=
  rewrite ?update_tg_resource_config_unfold; unfold telegram_of, tg_section, absent_or;
  destruct (store st !! "tg_resource") as [[| | | | |?tg]|] eqn:?Htg;
  simpl; rewrite ?set_channels_spec; simpl;
  rewrite ?lookup_empty;
  try match goal with
      | |- context [?tg !! "telegram"] =>
          destruct (tg !! "telegram") as [[]|] eqn:?Htel
      end;
  simpl; rewrite ?lookup_tg_resource_written; simpl.

(** C2 (what the code does). With [channels] given, the handler raises
    [KeyError] exactly when [tg_resource] is absent or is an object
    without the key [telegram]; the key reported is [telegram], nothing
    catches the exception and the store is as before.  When
    [tg_resource] or [telegram] is stored as something that is not an
    object, the exception is a [TypeError] instead.  When [telegram] is
    an object the handler returns, whatever its arguments; without
    [channels] there is no [KeyError]. *)
Theorem update_tg_resource_config_KeyError (st : ConfigManager)
    (channels : option (list TGChannel.t)) (patterns : option (gmap string string)) :
  let r := update_tg_resource_config channels patterns st in
  ((∃ k, r.1 = Raises (KeyError k))
     ↔ is_Some channels ∧ telegram_of (store st) = TelegramMissing)
  ∧ ((∃ k, r.1 = Raises (KeyError k)) → r = (Raises (KeyError "telegram"), st))
  ∧ (is_Some channels → telegram_of (store st) = TelegramNotObject →
     r = (Raises TypeError, st))
  ∧ ((∃ telegram, telegram_of (store st) = TelegramObject telegram) →
     r.1 = Returns tg_updated).
Proof.
  cbn zeta. split_and!.
  - split.
    + intros [k Hk]; revert Hk.
      destruct channels, patterns; tg_cases st; try done; eauto.
    + intros [[chs ->] Hm]; revert Hm.
      destruct patterns; tg_cases st; try done; eauto.
  - intros [k Hk]; revert Hk. destruct channels, patterns; tg_cases st; done.
  - intros [chs ->]. destruct patterns; tg_cases st; done.
  - intros [tel Htel']; revert Htel'. destruct channels, patterns; tg_cases st; done.
Qed.

(** C2 (the claim as stated fails). [telegram] stored as a string, or
    [tg_resource] stored as [None], does not exist as an object, yet a
    call with [channels] raises [TypeError], not a missing-key error. *)
Lemma update_tg_resource_config_TypeError_not_KeyError :
  (¬ ∃ telegram, telegram_of (store string_telegram_store) = TelegramObject telegram)
  ∧ update_tg_resource_config (Some []) None string_telegram_store =
      (Raises TypeError, string_telegram_store)
  ∧ (¬ ∃ k, (update_tg_resource_config (Some []) None string_telegram_store).1 =
             Raises (KeyError k))
  ∧ (¬ ∃ telegram, telegram_of (store null_tg_store) = TelegramObject telegram)
  ∧ update_tg_resource_config (Some []) None null_tg_store =
      (Raises TypeError, null_tg_store).
Proof.
  split_and!; try reflexivity.
  - intros [tel Htel]. discriminate Htel.
  - intros [k Hk]. discriminate Hk.
  - intros [tel Htel]. discriminate Htel.
Qed.

(** C3 (what the code does). When the objects the handler indexes are
    there, a call with [patterns] returns, and afterwards
    [tg_resource.cloudPatterns] is the submitted mapping and nothing
    else: a pattern key reads its submitted value, and reads nothing
    when the submitted mapping does not have it. *)
Theorem update_tg_resource_config_patterns (st : ConfigManager)
    (channels : option (list TGChannel.t)) (patterns : gmap string string) :
  tg_assignable channels (store st) = true →
  let r := update_tg_resource_config channels (Some patterns) st in
  r.1 = Returns tg_updated
  ∧ ∃ stored : gmap string value,
      tg_section (store r.2) "cloudPatterns" = Some (VDict stored)
      ∧ (∀ k, stored !! k = VStr <$> patterns !! k)
      ∧ (∀ k, patterns !! k = None → stored !! k = None).
Proof.
  intros Hok. cbn zeta.
  assert (Hfmap : ∀ k, (VStr <$> patterns) !! k = VStr <$> patterns !! k)
    by (intros; apply lookup_fmap).
  assert (Hgone : ∀ k, patterns !! k = None → (VStr <$> patterns) !! k = None)
    by (intros k Hk; by rewrite lookup_fmap, Hk).
  revert Hok. unfold tg_assignable.
  destruct channels; tg_cases st; try done; intros _;
    (split; [done|]); exists (VStr <$> patterns);
    (split; [by simplify_map_eq|done]).
Qed.

(** The patterns [{a, b}] replaced by [{c}]. *)
Lemma update_tg_resource_config_patterns_witness :
  tg_assignable None (store tg_store) = true
  ∧ let r := update_tg_resource_config None (Some {["c" := "z"]}) tg_store in
    r.1 = Returns tg_updated
    ∧ ∃ stored : gmap string value,
        tg_section (store r.2) "cloudPatterns" = Some (VDict stored)
        ∧ (∀ k, stored !! k = VStr <$> ({["c" := "z"]} : gmap string string) !! k)
        ∧ (∀ k, ({["c" := "z"]} : gmap string string) !! k = None → stored !! k = None).
Proof.
  split; [reflexivity|].
  apply (update_tg_resource_config_patterns tg_store None {["c" := "z"]}).
  reflexivity.
Defined.

(** C3 (the claim as stated fails). On a store that holds [None] under
    [tg_resource], a call with [patterns] raises [TypeError] and leaves
    the store as it was: no [cloudPatterns] is stored. *)
Lemma update_tg_resource_config_patterns_on_null :
  let r := update_tg_resource_config None (Some {["c" := "z"]}) null_tg_store in
  r = (Raises TypeError, null_tg_store)
  ∧ tg_section (store r.2) "cloudPatterns" = None
  ∧ tg_section (store r.2) "cloudPatterns" ≠ Some (dict_of_patterns {["c" := "z"]}).
Proof. split_and!; [reflexivity|reflexivity|discriminate]. Qed.

(** C6. On a store where [tg_resource.telegram] is an object, a call
    with [channels] returns; afterwards [telegram] is an object whose
    [channels] is the submitted sequence, in order, every entry being
    the two-key object [{id, name}], and whose other keys are as they
    were; this is the [telegram] of the object handed to the store. *)
Theorem update_tg_resource_config_channels (st : ConfigManager)
    (telegram : gmap string value)
    (channels : list TGChannel.t) (patterns : option (gmap string string)) :
  telegram_of (store st) = TelegramObject telegram →
  let r := update_tg_resource_config (Some channels) patterns st in
  r.1 = Returns tg_updated
  ∧ ∃ telegram' tg' : gmap string value,
      telegram_of (store r.2) = TelegramObject telegram'
      ∧ telegram' !! "channels" =
          Some (VList ((λ c, VDict (<["id" := VStr (TGChannel.id c)]>
                                    (<["name" := VStr (TGChannel.name c)]> ∅)))
                       <$> channels))
      ∧ (∀ k, k ≠ "channels" → telegram' !! k = telegram !! k)
      ∧ updates r.2 = updates st ++ [{["tg_resource" := VDict tg']}]
      ∧ tg' !! "telegram" = Some (VDict telegram').
Proof.
  cbn zeta. destruct patterns; tg_cases st; try done;
    intros [= <-]; (split; [done|]);
    exists (<["channels" := VList (TGChannel.dict <$> channels)]> d); eexists;
    (split_and!;
      [ by simplify_map_eq
      | by simplify_map_eq
      | intros k Hk; by simplify_map_eq
      | reflexivity
      | by simplify_map_eq ]).
Qed.

(** The channel [x] replaced by the channel [y]. *)
Lemma update_tg_resource_config_channels_witness :
  ∃ telegram : gmap string value,
    telegram_of (store tg_store) = TelegramObject telegram
    ∧ let channels := [TGChannel.Build "y" "Y"] in
      let r := update_tg_resource_config (Some channels) None tg_store in
      r.1 = Returns tg_updated
      ∧ ∃ telegram' tg' : gmap string value,
          telegram_of (store r.2) = TelegramObject telegram'
          ∧ telegram' !! "channels" =
              Some (VList ((λ c, VDict (<["id" := VStr (TGChannel.id c)]>
                                        (<["name" := VStr (TGChannel.name c)]> ∅)))
                           <$> channels))
          ∧ (∀ k, k ≠ "channels" → telegram' !! k = telegram !! k)
          ∧ updates r.2 = updates tg_store ++ [{["tg_resource" := VDict tg']}]
          ∧ tg' !! "telegram" = Some (VDict telegram').
Proof.
  eexists. split; [reflexivity|].
  apply (update_tg_resource_config_channels tg_store _ [TGChannel.Build "y" "Y"] None).
  reflexivity.
Defined.

(** C7. Whatever the call does, every top-level key other than
    [tg_resource] is as before; without [channels],
    [tg_resource.telegram] is as before; without [patterns],
    [tg_resource.cloudPatterns] is as before; the other keys of
    [tg_resource] are as before. *)
Theorem update_tg_resource_config_frame (st : ConfigManager)
    (channels : option (list TGChannel.t)) (patterns : option (gmap string string)) :
  let st' := (update_tg_resource_config channels patterns st).2 in
  (∀ k, k ≠ "tg_resource" → store st' !! k = store st !! k)
  ∧ (channels = None →
     tg_section (store st') "telegram" = tg_section (store st) "telegram")
  ∧ (patterns = None →
     tg_section (store st') "cloudPatterns" = tg_section (store st) "cloudPatterns")
  ∧ (∀ k, k ≠ "telegram" → k ≠ "cloudPatterns" →
     tg_section (store st') k = tg_section (store st) k).
Proof.
  cbn zeta. split_and!.
  - intros k Hk. rewrite update_tg_resource_config_unfold. cbn zeta.
    destruct (_ ≫= _); simpl; [|done].
    rewrite lookup_tg_resource_written. by case_decide.
  - intros ->. destruct patterns; tg_cases st;
      rewrite ?Htg; by simplify_map_eq.
  - intros ->. destruct channels; tg_cases st;
      rewrite ?Htg, ?Htel; by simplify_map_eq.
  - intros k Hk1 Hk2. destruct channels, patterns; tg_cases st;
      rewrite ?Htg, ?Htel; by simplify_map_eq.
Qed.

(** C10 (what the code does). A call either raises, and then the
    configuration manager is as before, or returns, and then it has
    handed the store one mapping [{tg_resource: ...}], merged into the
    stored one.  A call without arguments always returns: it writes
    back the value found under [tg_resource], or an empty object when
    the key was absent, and the key is there afterwards; on a store
    without the key the mapping is not what it was. *)
Theorem update_tg_resource_config_writes (st : ConfigManager) :
  (∀ channels patterns,
     let r := update_tg_resource_config channels patterns st in
     (∃ e, r = (Raises e, st))
     ∨ (∃ tg_config,
          r = (Returns tg_updated,
               {| store := {["tg_resource" := tg_config]} ∪ store st;
                  updates := updates st ++ [{["tg_resource" := tg_config]}] |})))
  ∧ (let current := match store st !! "tg_resource" with
                    | Some tg => tg
                    | None => VDict ∅
                    end in
     let r := update_tg_resource_config None None st in
     r = (Returns tg_updated,
          {| store := {["tg_resource" := current]} ∪ store st;
             updates := updates st ++ [{["tg_resource" := current]}] |})
     ∧ store r.2 !! "tg_resource" = Some current
     ∧ (store st !! "tg_resource" = None →
        store r.2 !! "tg_resource" = Some (VDict ∅) ∧ store r.2 ≠ store st)
     ∧ r.2 ≠ st).
Proof.
  split.
  - intros channels patterns. cbn zeta. rewrite update_tg_resource_config_unfold.
    cbn zeta. destruct (_ ≫= _); eauto.
  - cbn zeta. rewrite update_tg_resource_config_unfold. simpl.
    assert (default (VDict ∅) (store st !! "tg_resource") =
            match store st !! "tg_resource" with Some tg => tg | None => VDict ∅ end)
      as -> by (by destruct (store st !! "tg_resource")).
    split_and!; [done| | |].
    + by rewrite lookup_tg_resource_written.
    + intros Habs. rewrite Habs. split; [by rewrite lookup_tg_resource_written|].
      intros Heq. apply (f_equal (λ m, m !! "tg_resource")) in Heq.
      by rewrite lookup_tg_resource_written, Habs in Heq.
    + intros Heq. apply (f_equal (λ s, length (updates s))) in Heq.
      simpl in Heq. rewrite length_app in Heq. simpl in Heq. lia.
Qed.

(** C10 (the claim as stated fails). On a store without [tg_resource], a
    call with [channels] raises and writes nothing: the update log and
    the mapping are as before. *)
Lemma update_tg_resource_config_raise_without_write :
  let r := update_tg_resource_config (Some []) None fresh_store in
  r = (Raises (KeyError "telegram"), fresh_store)
  ∧ updates r.2 = []
  ∧ store r.2 !! "tg_resource" = None.
Proof. split_and!; reflexivity. Qed.

(** *** The examples of the specification, run *)

Example update_system_config_example :
  store (update_system_config (only_emby_url "c")
           {| store := <["emby_url" := VStr "a"]> (<["alist_url" := VStr "b"]> ∅);
              updates := [] |}).2
  = <["emby_url" := VStr "c"]> (<["alist_url" := VStr "b"]> ∅).
Proof. reflexivity. Qed.

Example get_proxy_config_defaults :
  @get_proxy_config strict fresh_store =
    (Returns (mkResponse None (Some (ProxyConfig.Build false "" "" "" ""))), fresh_store).
Proof. reflexivity. Qed.

Example update_proxy_config_unchanged_values :
  updates (update_proxy_config (ProxyConfig.Build true "127.0.0.1" "" "" "") media_store).2
  = [ <["use_proxy" := VBool true]> (<["proxy_host" := VStr "127.0.0.1"]> (
      <["proxy_port" := VStr ""]> (<["proxy_username" := VStr ""]> (
      <["proxy_password" := VStr ""]> ∅)))) ].
Proof. reflexivity. Qed.

Example cloudPatterns_replaced :
  tg_section (store (update_tg_resource_config None (Some {["c" := "z"]}) tg_store).2)
    "cloudPatterns"
  = Some (VDict {["c" := VStr "z"]}).
Proof. reflexivity. Qed.

Example channels_replaced :
  telegram_of (store (update_tg_resource_config
                        (Some [TGChannel.Build "y" "Y"]) None tg_store).2)
  = TelegramObject (<["baseUrl" := VStr "https://t.me/s"]> (
                    <["channels" := VList [VDict (<["id" := VStr "y"]> (
                                                  <["name" := VStr "Y"]> ∅))]]> ∅)).
Proof. reflexivity. Qed.

Example channels_on_fresh_store :
  update_tg_resource_config (Some [TGChannel.Build "y" "Y"]) None fresh_store
  = (Raises (KeyError "telegram"), fresh_store).
Proof. reflexivity. Qed.

Example no_argument_call_creates_key :
  update_tg_resource_config None None fresh_store
  = (Returns tg_updated,
     {| store := {["tg_resource" := VDict ∅]};
        updates := [{["tg_resource" := VDict ∅]}] |}).
Proof. reflexivity. Qed.

(** ** Further properties of the handlers *)

(** [UpdateConfig] in one piece: it never raises, and the mapping it
    stages does not depend on the store. *)
Lemma update_system_config_run (P : SysSettingUpdate.t) :
  ∃ staged : gmap string value,
    (∀ k, staged !! k = submitted P k)
    ∧ ∀ st, update_system_config P st =
        (Returns (mkResponse None (Some (staged ∪ store st))),
         {| store := staged ∪ store st; updates := updates st ++ [staged] |}).
Proof.
  eexists. split; [|reflexivity].
  intros k. rewrite !lookup_copy_if_set, lookup_empty. unfold submitted.
  repeat (case_decide; [subst k; simpl; repeat case_match; done|]).
  repeat (case_decide; [congruence|]). done.
Qed.

Lemma lookup_union_staged (staged cfg : gmap string value) k :
  (staged ∪ cfg) !! k =
    match staged !! k with Some v => Some v | None => cfg !! k end.
Proof. rewrite lookup_union. destruct (staged !! k), (cfg !! k); done. Qed.

(** [UpdateProxyConfig] in one piece. *)
Lemma update_proxy_config_run (p : ProxyConfig.t) :
  ∃ written : gmap string value,
    (∀ k, written !! k = submitted (proxy_update p) k)
    ∧ ∀ st, update_proxy_config p st =
        (Returns (mkResponse None (Some p)),
         {| store := written ∪ store st; updates := updates st ++ [written] |}).
Proof.
  eexists. split; [|reflexivity].
  intros k. unfold submitted, proxy_update. simpl.
  repeat (case_decide; [subst k; by simplify_map_eq|]).
  by simplify_map_eq.
Qed.

(** X1. Two partial updates in a row: every key reads the value of the
    second update when it sets the key, else the value of the first
    when it sets the key, else what the store held; the same update
    twice leaves the mapping as after once. *)
Theorem update_system_config_twice (st : ConfigManager) (P Q : SysSettingUpdate.t) :
  let after (P : SysSettingUpdate.t) st := (update_system_config P st).2 in
  (∀ k, store (after Q (after P st)) !! k =
        match submitted Q k with
        | Some v => Some v
        | None => match submitted P k with
                  | Some v => Some v
                  | None => store st !! k
                  end
        end)
  ∧ store (after P (after P st)) = store (after P st).
Proof.
  destruct (update_system_config_run P) as (sp & Hsp & HP).
  destruct (update_system_config_run Q) as (sq & Hsq & HQ).
  cbn zeta. split.
  - intros k. rewrite HP, HQ. simpl. by rewrite !lookup_union_staged, Hsq, Hsp.
  - rewrite !HP. simpl. apply map_eq. intros k.
    rewrite !lookup_union_staged. by destruct (sp !! k).
Qed.

(** X2. [UpdateConfig] leaves the mapping as it was exactly when every
    field it sets is already stored with that value (so always when it
    sets no field); even then it hands the store one mapping. *)
Theorem update_system_config_noop (st : ConfigManager) (P : SysSettingUpdate.t) :
  let st' := (update_system_config P st).2 in
  (store st' = store st ↔ ∀ k v, submitted P k = Some v → store st !! k = Some v)
  ∧ length (updates st') = S (length (updates st)).
Proof.
  destruct (update_system_config_run P) as (sp & Hsp & HP).
  cbn zeta. rewrite HP. simpl. split.
  - split.
    + intros Heq k v Hk. rewrite <- Heq, lookup_union_staged, Hsp, Hk. done.
    + intros Hall. apply map_eq. intros k. rewrite lookup_union_staged, Hsp.
      destruct (submitted P k) eqn:Hk; [|done]. symmetry. by apply Hall.
  - rewrite length_app. simpl. lia.
Qed.

(** X3. [UpdateProxyConfig] does to the configuration manager what
    [UpdateConfig] does with the five proxy fields set and no other:
    same mapping, same mapping handed to the store. *)
Theorem update_proxy_config_as_update_system_config (st : ConfigManager) (p : ProxyConfig.t) :
  (update_proxy_config p st).2 = (update_system_config (proxy_update p) st).2.
Proof.
  destruct (update_system_config_run (proxy_update p)) as (sp & Hsp & HP).
  destruct (update_proxy_config_run p) as (w & Hw & Hp).
  rewrite HP, Hp. simpl.
  assert (w = sp) as -> by (apply map_eq; intros k; by rewrite Hw, Hsp).
  done.
Qed.

(** X4. Of two [UpdateProxyConfig] in a row nothing of the first is
    left: the mapping is the one the second alone gives, and
    [GetProxyConfig] answers with the second object. *)
Theorem update_proxy_config_twice `{Coercion} (st : ConfigManager) (p q : ProxyConfig.t) :
  let st2 := (update_proxy_config q (update_proxy_config p st).2).2 in
  store st2 = store (update_proxy_config q st).2
  ∧ get_proxy_config st2 = (Returns (mkResponse None (Some q)), st2).
Proof.
  destruct (update_proxy_config_run p) as (wp & Hwp & Hp).
  destruct (update_proxy_config_run q) as (wq & Hwq & Hq).
  cbn zeta. rewrite Hp, !Hq. simpl. split.
  - apply map_eq. intros k. rewrite !lookup_union_staged, Hwq, Hwp.
    unfold submitted, proxy_update. simpl.
    repeat (case_decide; [done|]). done.
  - assert (Hl : ∀ k, (wq ∪ (wp ∪ store st)) !! k =
        match submitted (proxy_update q) k with
        | Some v => Some v | None => (wp ∪ store st) !! k end)
      by (intros k; by rewrite lookup_union_staged, Hwq).
    run. rewrite !Hl. simpl. by destruct q.
Qed.

(** X6. The answer of [GetProxyConfig] depends on the five proxy keys
    only: two stores that agree on them get the same answer. *)
Theorem get_proxy_config_five_keys `{Coercion} (st1 st2 : ConfigManager) :
  (∀ k, k ∈ proxy_fields → store st1 !! k = store st2 !! k) →
  (get_proxy_config st1).1 = (get_proxy_config st2).1.
Proof.
  intros Hagree. unfold proxy_fields in Hagree. run.
  rewrite !(Hagree "use_proxy"), !(Hagree "proxy_host"), !(Hagree "proxy_port"),
    !(Hagree "proxy_username"), !(Hagree "proxy_password") by set_solver.
  by destruct (ProxyConfig.new _ _ _ _ _).
Qed.

(** Two stores that differ outside the proxy settings. *)
Lemma get_proxy_config_five_keys_witness :
  (∀ k, k ∈ proxy_fields → store fresh_store !! k = store tg_store !! k)
  ∧ (@get_proxy_config strict fresh_store).1 = (@get_proxy_config strict tg_store).1.
Proof.
  assert (Hagree : ∀ k, k ∈ proxy_fields → store fresh_store !! k = store tg_store !! k).
  { intros k Hk. unfold proxy_fields in Hk.
    repeat (apply elem_of_cons in Hk as [->|Hk]; [reflexivity|]).
    by apply elem_of_nil in Hk. }
  split; [exact Hagree|].
  exact (@get_proxy_config_five_keys strict fresh_store tg_store Hagree).
Defined.

(** X7. [UpdateTGResourceConfig] returns exactly when its assignments
    find what they index; otherwise it raises [KeyError] for the key
    [telegram] or [TypeError], and the configuration manager is as
    before. *)
Theorem update_tg_resource_config_returns (st : ConfigManager)
    (channels : option (list TGChannel.t)) (patterns : option (gmap string string)) :
  let r := update_tg_resource_config channels patterns st in
  (r.1 = Returns tg_updated ↔ tg_update_returns channels patterns (store st) = true)
  ∧ (tg_update_returns channels patterns (store st) = false →
     r = (Raises (KeyError "telegram"), st) ∨ r = (Raises TypeError, st)).
Proof.
  cbn zeta. unfold tg_update_returns, tg_assignable.
  destruct channels, patterns; tg_cases st; split; try done; eauto.
Qed.

Lemma update_tg_resource_config_on_object (st : ConfigManager) channels patterns
    (tg telegram : gmap string value) :
  store st !! "tg_resource" = Some (VDict tg) →
  tg !! "telegram" = Some (VDict telegram) →
  update_tg_resource_config channels patterns st =
    (Returns tg_updated,
     {| store := {["tg_resource" := VDict (tg_after channels patterns tg telegram)]} ∪ store st;
        updates := updates st ++
          [{["tg_resource" := VDict (tg_after channels patterns tg telegram)]}] |}).
Proof.
  intros Htg Htel. rewrite update_tg_resource_config_unfold, Htg. simpl.
  destruct channels, patterns; simpl; rewrite ?set_channels_spec, ?Htel; done.
Qed.

(** X8. Where [tg_resource.telegram] is an object, one call with both
    arguments leaves the mapping that two calls leave, one argument
    each, in either order. *)
Theorem update_tg_resource_config_split (st : ConfigManager)
    (telegram : gmap string value)
    (channels : list TGChannel.t) (patterns : gmap string string) :
  telegram_of (store st) = TelegramObject telegram →
  let after c p st := (update_tg_resource_config c p st).2 in
  store (after (Some channels) (Some patterns) st)
    = store (after None (Some patterns) (after (Some channels) None st))
  ∧ store (after (Some channels) (Some patterns) st)
    = store (after (Some channels) None (after None (Some patterns) st)).
Proof.
  unfold telegram_of.
  destruct (store st !! "tg_resource") as [[| | | | |tg]|] eqn:Htg; try done.
  destruct (tg !! "telegram") as [[| | | | |tel]|] eqn:Htel; try done.
  intros _. cbn zeta.
  rewrite !(update_tg_resource_config_on_object st _ _ tg tel) by done. simpl.
  split.
  - erewrite update_tg_resource_config_on_object;
      [|simpl; by rewrite lookup_tg_resource_written|by simplify_map_eq].
    simpl. apply map_eq. intros k. rewrite !lookup_tg_resource_written.
    by case_decide.
  - erewrite update_tg_resource_config_on_object;
      [|simpl; by rewrite lookup_tg_resource_written|by simplify_map_eq].
    simpl. apply map_eq. intros k. rewrite !lookup_tg_resource_written.
    case_decide; [|done]. do 2 f_equal. by apply insert_insert_ne.
Qed.

(** The channels and the patterns of a store, replaced at once or one
    after the other. *)
Lemma update_tg_resource_config_split_witness :
  ∃ telegram : gmap string value,
    telegram_of (store tg_store) = TelegramObject telegram
    ∧ let channels := [TGChannel.Build "y" "Y"] in
      let patterns : gmap string string := {["c" := "z"]} in
      let after c p st := (update_tg_resource_config c p st).2 in
      store (after (Some channels) (Some patterns) tg_store)
        = store (after None (Some patterns) (after (Some channels) None tg_store))
      ∧ store (after (Some channels) (Some patterns) tg_store)
        = store (after (Some channels) None (after None (Some patterns) tg_store)).
Proof.
  eexists. split; [reflexivity|].
  eapply (update_tg_resource_config_split tg_store _ [TGChannel.Build "y" "Y"] {["c" := "z"]}).
  reflexivity.
Defined.

(** X9. Repeating a call of [UpdateTGResourceConfig] with the same
    arguments leaves the mapping as after the first call, on every
    store (a call that raises changes nothing either time). *)
Theorem update_tg_resource_config_idempotent (st : ConfigManager)
    (channels : option (list TGChannel.t)) (patterns : option (gmap string string)) :
  let after st := (update_tg_resource_config channels patterns st).2 in
  store (after (after st)) = store (after st).
Proof.
  cbv beta zeta. rewrite (update_tg_resource_config_unfold st). cbn zeta.
  destruct (_ ≫= _) as [tg'|e] eqn:Hrun; simpl;
    [|by rewrite update_tg_resource_config_unfold; cbn zeta; rewrite Hrun].
  rewrite update_tg_resource_config_unfold. simpl.
  rewrite lookup_tg_resource_written. simpl.
  assert (Hagain :
    (tg_config ← match channels with
                 | Some channels => set_channels tg' (VList (TGChannel.dict <$> channels))
                 | None => Returns tg'
                 end;
     match patterns with
     | Some patterns => setitem tg_config "cloudPatterns" (dict_of_patterns patterns)
     | None => Returns tg_config
     end) = Returns tg').
  { revert Hrun. destruct channels as [chs|], patterns as [pats|]; simpl;
      rewrite ?set_channels_spec;
      destruct (default (VDict ∅) (store st !! "tg_resource")) as [| | | | |tg];
      simpl; try done;
      try (destruct (tg !! "telegram") as [[| | | | |tel]|] eqn:Htel; simpl; try done);
      intros [= <-]; rewrite ?set_channels_spec; simplify_map_eq; simpl;
      rewrite ?insert_insert_eq; try done.
    - do 2 f_equal. apply map_eq. intros j. rewrite !lookup_insert.
      repeat case_decide; done. }
  rewrite Hagain. simpl. apply map_eq. intros k.
  rewrite !lookup_tg_resource_written. by case_decide.
Qed.

(** *** Sessions *)

Lemma settle_state {A : Type} (r : outcome A * ConfigManager) : (settle r).2 = r.2.
Proof. by destruct r as [[] ?]. Qed.

Lemma get_proxy_config_state `{Coercion} (st : ConfigManager) :
  (get_proxy_config st).2 = st.
Proof. run. by destruct (ProxyConfig.new _ _ _ _ _). Qed.

(** What a run of [UpdateTGResourceConfig] leaves: the manager as it
    was and an exception, or one object merged under [tg_resource]. *)
Lemma update_tg_resource_config_state (st : ConfigManager) channels patterns :
  (∃ e, update_tg_resource_config channels patterns st = (Raises e, st))
  ∨ (∃ tg_config,
       update_tg_resource_config channels patterns st =
         (Returns tg_updated,
          {| store := {["tg_resource" := tg_config]} ∪ store st;
             updates := updates st ++ [{["tg_resource" := tg_config]}] |})).
Proof.
  rewrite update_tg_resource_config_unfold. cbn zeta. destruct (_ ≫= _); eauto.
Qed.

(** Outside [tg_resource] a run of [UpdateTGResourceConfig] changes
    no key. *)
Lemma update_tg_resource_config_other_keys (st : ConfigManager) channels patterns k :
  k ≠ "tg_resource" →
  store (update_tg_resource_config channels patterns st).2 !! k = store st !! k.
Proof.
  intros Hk.
  destruct (update_tg_resource_config_state st channels patterns)
    as [[e ->]|[tg ->]]; [done|].
  simpl. rewrite lookup_tg_resource_written. by case_decide.
Qed.

(** [UpdateConfig] and [UpdateProxyConfig] leave [tg_resource] alone. *)
Lemma update_system_config_tg_resource (st : ConfigManager) (P : SysSettingUpdate.t) :
  store (update_system_config P st).2 !! "tg_resource" = store st !! "tg_resource".
Proof.
  destruct (update_system_config_run P) as (sp & Hsp & ->). simpl.
  by rewrite lookup_union_staged, Hsp.
Qed.

Lemma update_proxy_config_tg_resource (st : ConfigManager) (p : ProxyConfig.t) :
  store (update_proxy_config p st).2 !! "tg_resource" = store st !! "tg_resource".
Proof.
  destruct (update_proxy_config_run p) as (w & Hw & ->). simpl.
  by rewrite lookup_union_staged, Hw.
Qed.

Lemma absent_or_union (ty : value → bool) (w cfg : gmap string value) k :
  absent_or ty w k = true → absent_or ty cfg k = true →
  absent_or ty (w ∪ cfg) k = true.
Proof.
  unfold absent_or. rewrite lookup_union_staged. by destruct (w !! k).
Qed.

Lemma proxy_fields_typed_staged (P : SysSettingUpdate.t) (w cfg : gmap string value) :
  (∀ k, w !! k = submitted P k) →
  proxy_fields_typed cfg = true → proxy_fields_typed (w ∪ cfg) = true.
Proof.
  intros Hw. unfold proxy_fields_typed. rewrite !andb_true_iff.
  intros [[[[Hb Hh] Hp] Hu] Hx].
  split_and!; apply absent_or_union; try done;
    unfold absent_or; rewrite Hw; unfold submitted; simpl;
    by destruct P as [? ? ? ? ? ? ? [] [] [] [] []].
Qed.

(** One request keeps the proxy settings typed. *)
Lemma serve_proxy_fields_typed `{Coercion} (req : request) (st : ConfigManager) :
  proxy_fields_typed (store st) = true →
  proxy_fields_typed (store (serve req st).2) = true.
Proof.
  intros Hty. destruct req as [|P| |p| |channels patterns]; cbn [serve];
    rewrite settle_state.
  - done.
  - destruct (update_system_config_run P) as (sp & Hsp & ->). simpl.
    by eapply proxy_fields_typed_staged.
  - by rewrite get_proxy_config_state.
  - destruct (update_proxy_config_run p) as (w & Hw & ->). simpl.
    by eapply proxy_fields_typed_staged.
  - done.
  - revert Hty. unfold proxy_fields_typed, absent_or.
    by rewrite !update_tg_resource_config_other_keys.
Qed.

Lemma get_proxy_config_typed_returns `{Coercion} (st : ConfigManager) :
  proxy_fields_typed (store st) = true →
  ∃ r, get_proxy_config st = (Returns (mkResponse None (Some r)), st).
Proof.
  unfold proxy_fields_typed. rewrite !andb_true_iff.
  intros [[[[Hb Hh] Hp] Hu] Hw].
  apply absent_or_bool in Hb as [b Hb]. apply absent_or_str in Hh as [h Hh].
  apply absent_or_str in Hp as [p Hp]. apply absent_or_str in Hu as [u Hu].
  apply absent_or_str in Hw as [w Hw].
  exists (ProxyConfig.Build b h p u w). run. by rewrite Hb, Hh, Hp, Hu, Hw.
Qed.

(** X11. The handlers keep the proxy settings typed: on a store whose
    proxy settings, where present, have their declared types, they
    still have after any sequence of requests, and [GetProxyConfig]
    then returns, whatever the schema does with ill-typed values. *)
Theorem serve_all_proxy_fields_typed `{Coercion} (reqs : list request)
    (st : ConfigManager) :
  proxy_fields_typed (store st) = true →
  proxy_fields_typed (store (serve_all reqs st)) = true
  ∧ ∃ r, get_proxy_config (serve_all reqs st)
           = (Returns (mkResponse None (Some r)), serve_all reqs st).
Proof.
  intros Hty.
  assert (Hall : proxy_fields_typed (store (serve_all reqs st)) = true).
  { revert st Hty. induction reqs as [|req reqs IH]; intros st Hty; [done|].
    simpl. apply IH. by apply serve_proxy_fields_typed. }
  split; [done|]. by apply get_proxy_config_typed_returns.
Qed.

(** A session on a store with typed proxy settings. *)
Lemma serve_all_proxy_fields_typed_witness :
  proxy_fields_typed (store media_store) = true
  ∧ proxy_fields_typed (store (@serve_all strict sample_session media_store)) = true
  ∧ ∃ r, @get_proxy_config strict (@serve_all strict sample_session media_store)
           = (Returns (mkResponse None (Some r)), @serve_all strict sample_session media_store).
Proof.
  split; [reflexivity|].
  apply (@serve_all_proxy_fields_typed strict sample_session media_store).
  reflexivity.
Defined.

(** One request keeps [tg_resource.telegram] an object. *)
Lemma serve_telegram_object `{Coercion} (req : request) (st : ConfigManager) :
  (∃ telegram, telegram_of (store st) = TelegramObject telegram) →
  ∃ telegram, telegram_of (store (serve req st).2) = TelegramObject telegram.
Proof.
  intros [tel Htel]. destruct req as [|P| |p| |channels patterns]; cbn [serve];
    rewrite settle_state.
  - eauto.
  - exists tel. revert Htel. unfold telegram_of.
    by rewrite update_system_config_tg_resource.
  - rewrite get_proxy_config_state. eauto.
  - exists tel. revert Htel. unfold telegram_of.
    by rewrite update_proxy_config_tg_resource.
  - eauto.
  - revert Htel. unfold telegram_of.
    destruct (store st !! "tg_resource") as [[| | | | |tg]|] eqn:Htg; try done.
    destruct (tg !! "telegram") as [[| | | | |tel0]|] eqn:Htel0; try done.
    intros _. rewrite (update_tg_resource_config_on_object st _ _ tg tel0) by done.
    simpl. rewrite lookup_tg_resource_written. simpl. unfold tg_after.
    destruct channels, patterns; simplify_map_eq; eauto.
Qed.

(** X12. The handlers keep [tg_resource.telegram] an object: once it
    is one, it is one after any sequence of requests, and every call
    of [UpdateTGResourceConfig] made then returns. *)
Theorem serve_all_telegram_object `{Coercion} (reqs : list request)
    (st : ConfigManager) (telegram : gmap string value) :
  telegram_of (store st) = TelegramObject telegram →
  (∃ telegram', telegram_of (store (serve_all reqs st)) = TelegramObject telegram')
  ∧ ∀ channels patterns,
      (update_tg_resource_config channels patterns (serve_all reqs st)).1
        = Returns tg_updated.
Proof.
  intros Htel.
  assert (Hall : ∃ telegram',
            telegram_of (store (serve_all reqs st)) = TelegramObject telegram').
  { assert (Hst : ∃ t, telegram_of (store st) = TelegramObject t) by eauto.
    clear Htel. revert st Hst.
    induction reqs as [|req reqs IH]; intros st Hst; [done|].
    simpl. apply IH. by apply serve_telegram_object. }
  split; [done|]. intros channels patterns.
  destruct Hall as [tel' Htel']. revert Htel'. unfold telegram_of.
  destruct (store (serve_all reqs st) !! "tg_resource") as [[| | | | |tg]|] eqn:Htg;
    try done.
  destruct (tg !! "telegram") as [[| | | | |tel0]|] eqn:Htel0; try done.
  intros _. by rewrite (update_tg_resource_config_on_object _ _ _ tg tel0).
Qed.

(** A session on a store that has the Telegram settings. *)
Lemma serve_all_telegram_object_witness :
  ∃ telegram : gmap string value,
    telegram_of (store tg_store) = TelegramObject telegram
    ∧ (∃ telegram',
         telegram_of (store (@serve_all strict sample_session tg_store))
           = TelegramObject telegram')
    ∧ ∀ channels patterns,
        (update_tg_resource_config channels patterns
           (@serve_all strict sample_session tg_store)).1 = Returns tg_updated.
Proof.
  eexists. split; [reflexivity|].
  eapply (@serve_all_telegram_object strict sample_session tg_store).
  reflexivity.
Defined.

(** One request removes no top-level key. *)
Lemma serve_dom `{Coercion} (req : request) (st : ConfigManager) :
  dom (store st) ⊆ dom (store (serve req st).2).
Proof.
  destruct req as [|P| |p| |channels patterns]; cbn [serve]; rewrite settle_state.
  - done.
  - destruct (update_system_config_run P) as (sp & _ & ->). simpl. set_solver.
  - by rewrite get_proxy_config_state.
  - destruct (update_proxy_config_run p) as (w & _ & ->). simpl. set_solver.
  - done.
  - destruct (update_tg_resource_config_state st channels patterns)
      as [[e ->]|[tg ->]]; simpl; set_solver.
Qed.

(** X13. No handler ever removes a top-level key: after any sequence of
    requests the store has every key it had. *)
Theorem serve_all_dom `{Coercion} (reqs : list request) (st : ConfigManager) :
  dom (store st) ⊆ dom (store (serve_all reqs st)).
Proof.
  revert st. induction reqs as [|req reqs IH]; intros st; [done|].
  simpl. etrans; [apply (serve_dom req)|apply IH].
Qed.

(** X14. [UpdateTGResourceConfig] and [UpdateConfig] (or
    [UpdateProxyConfig]) commute: they answer the same and leave the
    same mapping in either order. *)
Theorem update_tg_resource_config_commutes (st : ConfigManager)
    (channels : option (list TGChannel.t)) (patterns : option (gmap string string))
    (P : SysSettingUpdate.t) (p : ProxyConfig.t) :
  let tg st := update_tg_resource_config channels patterns st in
  (tg (update_system_config P st).2).1 = (tg st).1
  ∧ store (tg (update_system_config P st).2).2 = store (update_system_config P (tg st).2).2
  ∧ (tg (update_proxy_config p st).2).1 = (tg st).1
  ∧ store (tg (update_proxy_config p st).2).2 = store (update_proxy_config p (tg st).2).2.
Proof.
  assert (Hgen : ∀ (w : gmap string value), w !! "tg_resource" = None →
    let st' := {| store := w ∪ store st; updates := updates st ++ [w] |} in
    (update_tg_resource_config channels patterns st').1
      = (update_tg_resource_config channels patterns st).1
    ∧ store (update_tg_resource_config channels patterns st').2
      = w ∪ store (update_tg_resource_config channels patterns st).2).
  { intros w Hw. cbn zeta. rewrite !update_tg_resource_config_unfold. simpl.
    rewrite lookup_union_staged, Hw.
    destruct (_ ≫= _) as [tg'|e]; simpl; [|done]. split; [done|].
    apply map_eq. intros k. rewrite !lookup_union_staged.
    destruct (decide (k = "tg_resource")) as [->|Hk].
    - by rewrite Hw, !lookup_singleton_eq.
    - by rewrite !lookup_singleton_ne. }
  destruct (update_system_config_run P) as (sp & Hsp & HP).
  destruct (update_proxy_config_run p) as (w & Hw & Hp).
  cbv beta zeta. rewrite !HP, !Hp. simpl.
  destruct (Hgen sp) as [H1 H2]; [by rewrite Hsp|].
  destruct (Hgen w) as [H3 H4]; [by rewrite Hw|].
  done.
Qed.

Lemma get_tg_resource_config_outcome (st : ConfigManager) :
  (get_tg_resource_config st).1 =
    Returns (mkResponse None (Some (default (VDict ∅) (store st !! "tg_resource")))).
Proof. reflexivity. Qed.

Lemma get_proxy_config_outcome `{Coercion} (st : ConfigManager) :
  (get_proxy_config st).1 =
    match ProxyConfig.new
            (default (VBool false) (store st !! "use_proxy"))
            (default (VStr "") (store st !! "proxy_host"))
            (default (VStr "") (store st !! "proxy_port"))
            (default (VStr "") (store st !! "proxy_username"))
            (default (VStr "") (store st !! "proxy_password"))
    with
    | Returns r => Returns (mkResponse None (Some r))
    | Raises e => Raises e
    end.
Proof. run. by destruct (ProxyConfig.new _ _ _ _ _). Qed.

(** X15. The groups of settings do not interfere: [UpdateConfig] and
    [UpdateProxyConfig] do not change what [GetTGResourceConfig]
    answers, and [UpdateTGResourceConfig] does not change what
    [GetProxyConfig] answers. *)
Theorem settings_groups_independent `{Coercion} (st : ConfigManager)
    (channels : option (list TGChannel.t)) (patterns : option (gmap string string))
    (P : SysSettingUpdate.t) (p : ProxyConfig.t) :
  (get_tg_resource_config (update_system_config P st).2).1 = (get_tg_resource_config st).1
  ∧ (get_tg_resource_config (update_proxy_config p st).2).1 = (get_tg_resource_config st).1
  ∧ (get_proxy_config (update_tg_resource_config channels patterns st).2).1
      = (get_proxy_config st).1.
Proof.
  split_and!.
  - by rewrite !get_tg_resource_config_outcome, update_system_config_tg_resource.
  - by rewrite !get_tg_resource_config_outcome, update_proxy_config_tg_resource.
  - rewrite !get_proxy_config_outcome.
    by rewrite !update_tg_resource_config_other_keys.
Qed.


